(** * go-anthropic: request builder, dispatcher and error decoder

    A shallow embedding of [client.go] and [common.go]: the dual-backend
    (direct API / Vertex AI gateway) request builder, the dispatcher
    [sendRequest] and the error decoder [handlerRequestError], together
    with the properties the specification states about them.

    Go strings are byte strings and are modelled by [string]; [[]byte] by
    [list byte]; [http.Header] by a finite map from canonical keys to value
    lists; a Go [error] return by [option error] or by a [result]. *)

From Stdlib Require Import ZArith Ascii String List Bool Lia.
From Stdlib Require Import Strings.Byte.
From stdpp Require Import base option strings gmap.

Import ListNotations.
Local Open Scope string_scope.

(** ** common.go *)

Definition ModelClaudeInstant1Dot2 : string := "claude-instant-1.2".
Definition ModelClaude2Dot0 : string := "claude-2.0".
Definition ModelClaude2Dot1 : string := "claude-2.1".
Definition ModelClaude3Opus20240229 : string := "claude-3-opus-20240229".
Definition ModelClaude3Sonnet20240229 : string := "claude-3-sonnet-20240229".
Definition ModelClaude3Haiku20240307 : string := "claude-3-haiku-20240307".

Definition RoleUser : string := "user".
Definition RoleAssistant : string := "assistant".

(** The [switch] of [translateVertexModel]: cases are tried in order, the
    [default] branch returns the argument. *)
Definition translateVertexModel (model : string) : string :=
  if String.eqb model ModelClaude3Haiku20240307 then "claude-3-haiku@20240307"
  else if String.eqb model ModelClaude3Opus20240229 then "claude-3-opus@20240229"
  else if String.eqb model ModelClaude3Sonnet20240229 then "claude-3-sonnet@20240229"
  else model.

(** The translation table the specification speaks of, written as the
    association list of canonical identifier and gateway identifier. It is
    the reference [translateVertexModel] is compared with. *)
Definition ModelTranslationTable : list (string * string) :=
  [ ("claude-3-haiku-20240307", "claude-3-haiku@20240307");
    ("claude-3-opus-20240229", "claude-3-opus@20240229");
    ("claude-3-sonnet-20240229", "claude-3-sonnet@20240229") ].

Fixpoint table_lookup (k : string) (t : list (string * string)) : option string :=
  match t with
  | [] => None
  | (k', v) :: t' => if String.eqb k k' then Some v else table_lookup k t'
  end.

(** [TranslateModel] as the specification words it: look the identifier up,
    pass it through when it is absent. *)
Definition TranslateModel_spec (model : string) : string :=
  match table_lookup model ModelTranslationTable with
  | Some v => v
  | None => model
  end.

(** [strings.HasSuffix]: the test the specification's "ends with" stands
    for. *)
Definition HasSuffix (s suffix : string) : bool :=
  (String.length suffix <=? String.length s)%nat
  && String.eqb
       (substring (String.length s - String.length suffix) (String.length suffix) s)
       suffix.

(** ** Library types used by client.go *)

Abbreviation bytes := (list byte).

(** *** net/textproto: canonical header keys

    [http.Header.Set] stores its value under
    [textproto.CanonicalMIMEHeaderKey key]: a key holding a byte that is not
    a token byte is left as it is, otherwise the first letter and every
    letter after a dash is upper-cased and the others are lower-cased. *)

Definition validHeaderFieldByte (c : ascii) : bool :=
  let n := nat_of_ascii c in
  (((48 <=? n) && (n <=? 57)) || ((97 <=? n) && (n <=? 122))
   || ((65 <=? n) && (n <=? 90))
   || existsb (Nat.eqb n)
        [33; 35; 36; 37; 38; 39; 42; 43; 45; 46; 94; 95; 96; 124; 126])%nat.

Fixpoint allValidHeaderFieldBytes (s : string) : bool :=
  match s with
  | EmptyString => true
  | String c s' => validHeaderFieldByte c && allValidHeaderFieldBytes s'
  end.

Definition toLower : nat := 32.

Fixpoint canonicalizeFrom (upper : bool) (s : string) : string :=
  match s with
  | EmptyString => EmptyString
  | String c s' =>
      let n := nat_of_ascii c in
      let c' :=
        (if upper && (97 <=? n) && (n <=? 122) then ascii_of_nat (n - toLower)
         else if negb upper && (65 <=? n) && (n <=? 90) then ascii_of_nat (n + toLower)
         else c)%nat in
      String c' (canonicalizeFrom (Ascii.eqb c' "-") s')
  end.

Definition CanonicalMIMEHeaderKey (s : string) : string :=
  if allValidHeaderFieldBytes s then canonicalizeFrom true s else s.

(** *** net/http: headers, requests, responses *)

Abbreviation Header := (gmap string (list string)).

(** [h.Set(key, value)]: replaces whatever was stored under the canonical
    key by the single value. *)
Definition Header_Set (key value : string) (h : Header) : Header :=
  <[CanonicalMIMEHeaderKey key := [value]]> h.

(** [*http.Request], reduced to what the builder sets: the method, the URL
    (kept as the string handed to the constructor), the headers and the
    serialized body. *)
Record Request := mkRequest {
  req_Method : string;
  req_URL : string;
  req_Header : Header;
  req_Body : bytes
}.

Definition req_set_Header (key value : string) (req : Request) : Request :=
  {| req_Method := req_Method req; req_URL := req_URL req;
     req_Header := Header_Set key value (req_Header req);
     req_Body := req_Body req |}.

(** Modelled from the spec: the inner error payloads [APIError] and
    [VertexAPIError] of error.go, which is not among the sources; the
    specification gives both envelopes the shape {error: {type, message}}. *)
Record APIError := mkAPIError { api_Type : string; api_Message : string }.
Record VertexAPIError := mkVertexAPIError { vx_Type : string; vx_Message : string }.

(** [ErrorResponse] and [VertexAIErrorResponse]: an envelope whose [Error]
    field is a pointer, nil when the key is absent or null. *)
Record ErrorResponse := mkErrorResponse { er_Error : option APIError }.
Record VertexAIErrorResponse := mkVertexAIErrorResponse {
  ver_Error : option VertexAPIError
}.

(** Go [error] values that occur in client.go.
    - [libError]: an error produced by a library call (transport, reader,
      JSON encoder or decoder, request constructor), opaque here;
    - [errorString]: [fmt.Errorf] of a constant format without verbs;
    - [RequestErrorPtr]: [&RequestError{StatusCode, Err, RawBody}], a field
      left out of the literal has its zero value ([None], [[]]);
    - [wrapAPIError] / [wrapVertexAPIError]:
      [fmt.Errorf("error, status code: %d, message: %w", status, inner)],
      which formats the status code and wraps the decoded inner error. *)
#[warnings="-register-all"]
Inductive error : Type :=
| libError (msg : string)
| errorString (msg : string)
| RequestErrorPtr (StatusCode : Z) (Err : option error) (RawBody : bytes)
| wrapAPIError (StatusCode : Z) (inner : APIError)
| wrapVertexAPIError (StatusCode : Z) (inner : VertexAPIError).

(** An [io.Reader] holding a body: the bytes it delivers and the error it
    ends with ([None] for a clean end of input). *)
Record reader := mkReader { rd_data : bytes; rd_err : option error }.

(** [io.ReadAll]: the bytes read and the error, if any. *)
Definition io_ReadAll (r : reader) : bytes * option error := (rd_data r, rd_err r).

Record http_Response := mkResponse {
  resp_StatusCode : Z;
  resp_Header : Header;
  resp_Body : reader
}.

(** Outcome of a call that returns [(value, error)] or panics. *)
Inductive result (A : Type) : Type :=
| Ok (a : A)
| Err (e : error)
| Panic (msg : string).
Arguments Ok {A} a.
Arguments Err {A} e.
Arguments Panic {A} msg.

Definition bind {A B} (r : result A) (k : A -> result B) : result B :=
  match r with
  | Ok a => k a
  | Err e => Err e
  | Panic m => Panic m
  end.

Declare Scope result_scope.
Delimit Scope result_scope with result.
Notation "x <- r ;; k" := (bind r (fun x => k))
  (at level 100, r at next level, right associativity) : result_scope.

(** ** client.go: configuration *)

(** [ClientConfig] as client.go uses it: the transport's [Do], the
    protocol version, the base URL, the static key and the optional key
    resolver (a nil func is [None]). *)
Record ClientConfig := mkConfig {
  HTTPClient_Do : Request -> http_Response + error;
  APIVersion : string;
  BaseURL : string;
  apikey : string;
  apiKeyFunc : option (unit -> string)
}.

Record Client := mkClient { config : ClientConfig }.

Definition StatusOK : Z := 200.
Definition StatusBadRequest : Z := 400.

(** The success range of the specification: 200 through 399. *)
Definition successStatus (StatusCode : Z) : Prop := (200 <= StatusCode <= 399)%Z.

(** The status code an error of client.go carries: the [StatusCode] field of
    a [RequestError], the formatted status code of a wrapping error. *)
Definition error_StatusCode (e : error) : option Z :=
  match e with
  | RequestErrorPtr StatusCode _ _ => Some StatusCode
  | wrapAPIError StatusCode _ => Some StatusCode
  | wrapVertexAPIError StatusCode _ => Some StatusCode
  | libError _ | errorString _ => None
  end.

(** The capability [VertexAISupport] a request body may have: it reports its
    model and accepts the protocol version (the setter mutates the body in
    place, here it returns the updated body). *)
Class VertexAISupport (B : Type) := {
  GetModel : B -> string;
  SetAnthropicVersion : string -> B -> B
}.

(** The capability [Response] of a result object. *)
Class Response (V : Type) := {
  SetHeader : Header -> V -> V
}.

(** [type httpHeader http.Header]: [SetHeader] overwrites the receiver,
    [Header] reads it back. *)
Definition httpHeader : Type := Header.

#[export] Instance httpHeader_Response : Response httpHeader := {
  SetHeader header _ := header
}.

Definition httpHeader_Header (h : httpHeader) : Header := h.

(** [type requestSetter func(req *http.Request)]: a mutation of the request,
    here the function from the request before to the request after. *)
Definition requestSetter : Type := Request -> Request.

Definition withBetaVersion (version : string) : requestSetter :=
  fun req => req_set_Header "anthropic-beta" version req.

(** Setters that leave the URL, or the values stored under a header key,
    as they found them. *)
Definition keepsURL (setter : requestSetter) : Prop :=
  forall req, req_URL (setter req) = req_URL req.

Definition keepsHeader (key : string) (setter : requestSetter) : Prop :=
  forall req, req_Header (setter req) !! key = req_Header req !! key.

(** Setters that leave the serialized body as they found it. *)
Definition keepsBody (setter : requestSetter) : Prop :=
  forall req, req_Body (setter req) = req_Body req.

(** A body of type [any]: nil, a value whose dynamic type has the
    [VertexAISupport] methods ([B]), or a value whose dynamic type lacks
    them ([P]). *)
Inductive any (B P : Type) : Type :=
| anyNil
| anyVertex (b : B)
| anyOther (p : P).
Arguments anyNil {B P}.
Arguments anyVertex {B P} b.
Arguments anyOther {B P} p.

Definition isNil {B P : Type} (body : any B P) : bool :=
  match body with anyNil => true | _ => false end.

(** ** What client.go calls and the sources do not hold *)

(** [isVertexAI] is declared in config.go, which is not among the sources:
    the classification of the protocol version is a parameter. *)
Class BackendResolver := {
  isVertexAI : string -> bool
}.

(** The library calls of the request builder.
    - [json_Marshal]: [json.Marshal] on a non-nil body, the encoding or the
      message of the encoder's error;
    - [Ctx]: the values of [context.Context];
    - [http_validate]: [http.NewRequestWithContext] refuses an invalid
      method, a nil context and a URL that does not parse; this stands for
      the three tests and gives the message of the constructor's error. *)
Class RequestLib (B P : Type) := {
  json_Marshal : any B P -> bytes + string;
  Ctx : Type;
  http_validate : Ctx -> string -> string -> option string
}.

(** [json.Unmarshal] into a zero [ErrorResponse] and into a zero
    [VertexAIErrorResponse]: the envelope after the call and the error. *)
Class ErrorShapeLib := {
  json_Unmarshal_ErrorResponse : bytes -> ErrorResponse * option error;
  json_Unmarshal_VertexAIErrorResponse : bytes -> VertexAIErrorResponse * option error
}.

(** [json.NewDecoder(body).Decode(v)] works in two steps: the decoder first
    reads one complete JSON value from the stream ([json_readValue]: a read
    failure or a syntax error is returned here, before [v] is touched) and
    then stores it into [v] ([json_unmarshal], which may fail on a type
    mismatch after having written part of [v]). *)
Class DecoderLib (V : Type) := {
  json_readValue : reader -> bytes + error;
  json_unmarshal : bytes -> V -> V * option error
}.

(** ** client.go: the code *)

Section ClientCode.

Context {resolver : BackendResolver}.

Definition IsVertexAI (c : Client) : bool := isVertexAI (APIVersion (config c)).

(** *** fullURL *)

(** [suffix[1:]] panics on the empty string; [fmt.Sprintf] of [%s] verbs
    concatenates. *)
Definition fullURL (c : Client) (suffix model : string) : result string :=
  if isVertexAI (APIVersion (config c)) then
    match suffix with
    | EmptyString => Panic "slice bounds out of range [1:0]"
    | String _ rest =>
        Ok (BaseURL (config c) +:+ "/" +:+ translateVertexModel model +:+ ":" +:+ rest)
    end
  else Ok (BaseURL (config c) +:+ suffix).

(** *** newRequest *)

Context {B P : Type} {support : VertexAISupport B} {lib : RequestLib B P}.

(** An empty method means GET; the new request has no headers. *)
Definition http_NewRequestWithContext
    (ctx : Ctx) (method url : string) (body : bytes) : result Request :=
  match http_validate ctx method url with
  | Some msg => Err (libError msg)
  | None =>
      Ok {| req_Method := if String.eqb method "" then "GET" else method;
            req_URL := url; req_Header := ∅; req_Body := body |}
  end.

(** Lines 120-128: the model and the body after the capability check, or
    the error of a gateway call whose body lacks the capability. *)
Definition negotiateBody (c : Client) (body : any B P) : (string * any B P) + error :=
  if isVertexAI (APIVersion (config c)) && negb (isNil body) then
    match body with
    | anyVertex b =>
        inl (GetModel b, anyVertex (SetAnthropicVersion (APIVersion (config c)) b))
    | _ => inr (errorString "this call not supported by the Vertex AI API")
    end
  else inl ("", body).

Definition marshalBody (body : any B P) : result bytes :=
  match json_Marshal body with
  | inl reqBody => Ok reqBody
  | inr msg => Err (libError msg)
  end.

Definition resolveAPIKey (c : Client) : string :=
  match apiKeyFunc (config c) with
  | Some f => f tt
  | None => apikey (config c)
  end.

Definition setAuthHeaders (c : Client) (req : Request) : Request :=
  if isVertexAI (APIVersion (config c)) then
    req_set_Header "Authorization" ("Bearer " +:+ resolveAPIKey c) req
  else
    req_set_Header "Anthropic-Version" (APIVersion (config c))
      (req_set_Header "X-Api-Key" (resolveAPIKey c) req).

Definition applySetters (requestSetters : list requestSetter) (req : Request) : Request :=
  fold_left (fun r setter => setter r) requestSetters req.

(** The body after the call (it is mutated in place in gateway mode) and
    the returned [(req, err)]. *)
Definition newRequest (c : Client) (ctx : Ctx) (method urlSuffix : string)
    (body : any B P) (requestSetters : list requestSetter) : any B P * result Request :=
  match negotiateBody c body with
  | inr e => (body, Err e)
  | inl (model, body') =>
      (body',
       (reqBody <- (if isNil body' then Ok [] else marshalBody body') ;;
        url <- fullURL c urlSuffix model ;;
        req <- http_NewRequestWithContext ctx method url reqBody ;;
        let req := req_set_Header "Content-Type" "application/json; charset=utf-8" req in
        let req := req_set_Header "Accept" "application/json; charset=utf-8" req in
        let req := setAuthHeaders c req in
        Ok (applySetters requestSetters req))%result)
  end.

(** *** newStreamRequest *)

Definition streamHeaders (req : Request) : Request :=
  req_set_Header "Connection" "keep-alive"
    (req_set_Header "Cache-Control" "no-cache"
       (req_set_Header "Accept" "text/event-stream" req)).

Definition newStreamRequest (c : Client) (ctx : Ctx) (method urlSuffix : string)
    (body : any B P) (requestSetters : list requestSetter) : any B P * result Request :=
  let '(body', r) := newRequest c ctx method urlSuffix body requestSetters in
  (body', (req <- r ;; Ok (streamHeaders req))%result).

(** *** handlerRequestError *)

Context {shapes : ErrorShapeLib}.

Definition handlerRequestError (c : Client) (resp : http_Response) : option error :=
  let StatusCode := resp_StatusCode resp in
  if (StatusCode <? StatusOK)%Z || (StatusBadRequest <=? StatusCode)%Z then
    let '(bodyBytes, err) := io_ReadAll (resp_Body resp) in
    match err with
    | Some e => Some (RequestErrorPtr StatusCode (Some e) [])
    | None =>
        if IsVertexAI c && (StatusCode =? 401)%Z then
          let '(errRes, err) := json_Unmarshal_VertexAIErrorResponse bodyBytes in
          match err, ver_Error errRes with
          | None, Some inner => Some (wrapVertexAPIError StatusCode inner)
          | _, _ => Some (RequestErrorPtr StatusCode err bodyBytes)
          end
        else
          let '(errRes, err) := json_Unmarshal_ErrorResponse bodyBytes in
          match err, er_Error errRes with
          | None, Some inner => Some (wrapAPIError StatusCode inner)
          | _, _ => Some (RequestErrorPtr StatusCode err bodyBytes)
          end
    end
  else None.

(** *** sendRequest *)

Context {V : Type} {response : Response V} {decoder : DecoderLib V}.

Definition Decoder_Decode (r : reader) (v : V) : V * option error :=
  match json_readValue r with
  | inr e => (v, Some e)
  | inl value => json_unmarshal value v
  end.

(** The result object after the call and the returned error. The deferred
    [res.Body.Close()] has no part in either. *)
Definition sendRequest (c : Client) (req : Request) (v : V) : V * option error :=
  match HTTPClient_Do (config c) req with
  | inr err => (v, Some err)
  | inl res =>
      let v := SetHeader (resp_Header res) v in
      match handlerRequestError c res with
      | Some err => (v, Some err)
      | None => Decoder_Decode (resp_Body res) v
      end
  end.

End ClientCode.

(** ** A concrete runtime

    One instance of every parameter of the code above, on which the model
    is run: the gateway convention for protocol versions, a request body
    with the gateway capability, a request body without it, a result
    object, and small stand-ins for the JSON and HTTP library calls. *)

Definition sample_resolver : BackendResolver := {|
  isVertexAI apiVersion := String.prefix "vertex-" apiVersion
|}.

Record MessagesRequest := mkMessagesRequest {
  mr_Model : string;
  mr_AnthropicVersion : string
}.

#[export] Instance MessagesRequest_VertexAISupport : VertexAISupport MessagesRequest := {
  GetModel m := mr_Model m;
  SetAnthropicVersion version m :=
    {| mr_Model := mr_Model m; mr_AnthropicVersion := version |}
}.

(** A body without the capability: a plain text. *)
Definition sample_any : Type := any MessagesRequest string.

Definition sample_Marshal (body : sample_any) : bytes + string :=
  match body with
  | anyNil => inl (list_byte_of_string "null")
  | anyVertex m =>
      inl (list_byte_of_string (mr_Model m +:+ ";" +:+ mr_AnthropicVersion m))
  | anyOther text => inl (list_byte_of_string text)
  end.

(** The method test of the request constructor; the context and the URL are
    accepted. *)
Definition sample_validate (ctx : unit) (method url : string) : option string :=
  if allValidHeaderFieldBytes method then None
  else Some "net/http: invalid method".

(** Writes a JSON text with apostrophes for the double quotes. *)
Fixpoint dq (s : string) : string :=
  match s with
  | EmptyString => EmptyString
  | String c s' =>
      String (if Ascii.eqb c "'" then ascii_of_nat 34 else c) (dq s')
  end.

Definition json_text (s : string) : bytes := list_byte_of_string (dq s).

Definition sample_error_body : bytes :=
  json_text "{'error':{'type':'authentication_error','message':'invalid x-api-key'}}".
Definition sample_null_body : bytes := json_text "{'error':null}".
Definition sample_html_body : bytes := list_byte_of_string "<html>Bad Gateway</html>".

Definition bytes_eqb (a b : bytes) : bool :=
  String.eqb (string_of_list_byte a) (string_of_list_byte b).

Definition sample_Unmarshal_ErrorResponse (body : bytes) : ErrorResponse * option error :=
  if bytes_eqb body sample_error_body then
    ({| er_Error := Some {| api_Type := "authentication_error";
                            api_Message := "invalid x-api-key" |} |}, None)
  else if bytes_eqb body sample_null_body then ({| er_Error := None |}, None)
  else ({| er_Error := None |}, Some (libError "invalid character")).

Definition sample_Unmarshal_VertexAIErrorResponse (body : bytes)
    : VertexAIErrorResponse * option error :=
  if bytes_eqb body sample_error_body then
    ({| ver_Error := Some {| vx_Type := "authentication_error";
                             vx_Message := "invalid x-api-key" |} |}, None)
  else if bytes_eqb body sample_null_body then ({| ver_Error := None |}, None)
  else ({| ver_Error := None |}, Some (libError "invalid character")).

(** A result object: the embedded [httpHeader] and one decoded field. *)
Record MessagesResponse := mkMessagesResponse {
  mresp_httpHeader : httpHeader;
  mresp_ID : string
}.

#[export] Instance MessagesResponse_Response : Response MessagesResponse := {
  SetHeader header v :=
    {| mresp_httpHeader := SetHeader header (mresp_httpHeader v);
       mresp_ID := mresp_ID v |}
}.

(** A stream holds a JSON value when it ends cleanly and its text is an
    object in braces. *)
Definition sample_readValue (r : reader) : bytes + error :=
  match rd_err r with
  | Some e => inr e
  | None =>
      let text := string_of_list_byte (rd_data r) in
      if String.prefix "{" text && HasSuffix text "}" then inl (rd_data r)
      else inr (libError "invalid character looking for beginning of value")
  end.

Definition sample_unmarshal (value : bytes) (v : MessagesResponse)
    : MessagesResponse * option error :=
  ({| mresp_httpHeader := mresp_httpHeader v;
      mresp_ID := string_of_list_byte value |}, None).

Definition sample_headers : Header :=
  {[ "Anthropic-Ratelimit-Requests-Remaining" := ["99"] ]}.

Definition sample_response (status : Z) (body : bytes) : http_Response :=
  {| resp_StatusCode := status; resp_Header := sample_headers;
     resp_Body := {| rd_data := body; rd_err := None |} |}.

Definition sample_transport (status : Z) (body : bytes) (req : Request)
    : http_Response + error :=
  inl (sample_response status body).

Definition sample_client (apiVersion : string) (status : Z) (body : bytes) : Client :=
  {| config := {| HTTPClient_Do := sample_transport status body;
                  APIVersion := apiVersion;
                  BaseURL := "https://api.example.com";
                  apikey := "sk-test";
                  apiKeyFunc := None |} |}.

Definition sample_request : Request :=
  {| req_Method := "POST"; req_URL := "https://api.example.com/v1/messages";
     req_Header := ∅; req_Body := [] |}.

Definition sample_result : MessagesResponse :=
  {| mresp_httpHeader := ∅; mresp_ID := "" |}.

Definition sample_body : MessagesRequest :=
  {| mr_Model := "claude-3-haiku-20240307"; mr_AnthropicVersion := "" |}.

(** A gateway client and a direct client, with the response their
    transport answers. *)
Definition gateway_client (status : Z) (body : bytes) : Client :=
  sample_client "vertex-2023-10-16" status body.

Definition direct_client (status : Z) (body : bytes) : Client :=
  sample_client "2023-06-01" status body.

Definition sample_setters : list requestSetter := [withBetaVersion "tools"].

Definition sample_lib : RequestLib MessagesRequest string := {|
  json_Marshal := sample_Marshal;
  Ctx := unit;
  http_validate := sample_validate
|}.

Definition sample_shapes : ErrorShapeLib := {|
  json_Unmarshal_ErrorResponse := sample_Unmarshal_ErrorResponse;
  json_Unmarshal_VertexAIErrorResponse := sample_Unmarshal_VertexAIErrorResponse
|}.

Definition sample_decoder : DecoderLib MessagesResponse := {|
  json_readValue := sample_readValue;
  json_unmarshal := sample_unmarshal
|}.

Definition sample_newRequest :=
  newRequest (resolver := sample_resolver) (lib := sample_lib).

Definition sample_newStreamRequest :=
  newStreamRequest (resolver := sample_resolver) (lib := sample_lib).

Definition sample_handlerRequestError :=
  handlerRequestError (resolver := sample_resolver) (shapes := sample_shapes).

Definition sample_sendRequest :=
  sendRequest (resolver := sample_resolver) (shapes := sample_shapes)
    (decoder := sample_decoder).

(** A client whose key comes from a resolver, a client whose transport
    fails, a pair of parsers whose gateway parser accepts nothing, and a
    decoder for a bare [httpHeader]. *)
Definition keyed_client (apiVersion static : string) : Client :=
  {| config := {| HTTPClient_Do := sample_transport 200 [];
                  APIVersion := apiVersion;
                  BaseURL := "https://api.example.com";
                  apikey := static;
                  apiKeyFunc := Some (fun _ => "sk-resolved") |} |}.

Definition offline_client : Client :=
  {| config := {| HTTPClient_Do := fun _ => inr (libError "connection refused");
                  APIVersion := "2023-06-01";
                  BaseURL := "https://api.example.com";
                  apikey := "sk-test";
                  apiKeyFunc := None |} |}.

Definition strict_shapes : ErrorShapeLib := {|
  json_Unmarshal_ErrorResponse := sample_Unmarshal_ErrorResponse;
  json_Unmarshal_VertexAIErrorResponse :=
    fun _ => ({| ver_Error := None |}, Some (libError "unknown field"))
|}.

Definition header_decoder : DecoderLib httpHeader := {|
  json_readValue := sample_readValue;
  json_unmarshal := fun _ h => (h, None)
|}.

Definition truncated_response (status : Z) (body : bytes) : http_Response :=
  {| resp_StatusCode := status; resp_Header := sample_headers;
     resp_Body := {| rd_data := body; rd_err := Some (libError "unexpected EOF") |} |}.

Definition legacy_body : MessagesRequest :=
  {| mr_Model := "claude-2.1"; mr_AnthropicVersion := "" |}.

(** * Properties *)

(** ** Strings *)

Lemma append_String a s1 s2 : String a s1 +:+ s2 = String a (s1 +:+ s2).
Proof. reflexivity. Qed.

Lemma append_assoc s1 s2 s3 : (s1 +:+ s2) +:+ s3 = s1 +:+ (s2 +:+ s3).
Proof.
  induction s1 as [|a s1 IH]; [reflexivity|].
  rewrite !append_String. now rewrite IH.
Qed.

Lemma length_append s1 s2 :
  String.length (s1 +:+ s2) = (String.length s1 + String.length s2)%nat.
Proof.
  induction s1 as [|a s1 IH]; [reflexivity|].
  rewrite append_String. simpl. now rewrite IH.
Qed.

Lemma substring_whole s : substring 0 (String.length s) s = s.
Proof. induction s as [|a s IH]; simpl; [reflexivity | now rewrite IH]. Qed.

Lemma substring_append p s :
  substring (String.length p) (String.length s) (p +:+ s) = s.
Proof.
  induction p as [|a p IH]; [apply substring_whole|].
  rewrite append_String. simpl. exact IH.
Qed.

Lemma HasSuffix_append p s : HasSuffix (p +:+ s) s = true.
Proof.
  unfold HasSuffix. rewrite length_append.
  replace (String.length p + String.length s - String.length s)%nat
    with (String.length p) by lia.
  rewrite substring_append, String.eqb_refl, andb_true_r.
  apply Nat.leb_le. lia.
Qed.

(** ** common.go: model translation *)

Lemma translateVertexModel_refines model :
  translateVertexModel model = TranslateModel_spec model.
Proof.
  unfold translateVertexModel, TranslateModel_spec, ModelTranslationTable,
    ModelClaude3Haiku20240307, ModelClaude3Opus20240229,
    ModelClaude3Sonnet20240229.
  cbn [table_lookup].
  repeat match goal with
  | |- context [String.eqb model ?k] => destruct (String.eqb model k)
  end; reflexivity.
Qed.

(** C7. Every identifier of the translation table is translated to the
    gateway identifier the table gives it, every identifier absent from the
    table is returned unchanged, and the function agrees everywhere with
    the table lookup of the specification: being a function that is
    defined on every string, it never fails. *)
Theorem translateVertexModel_table (model : string) :
  translateVertexModel model = TranslateModel_spec model
  /\ (forall mapped, In (model, mapped) ModelTranslationTable ->
        translateVertexModel model = mapped)
  /\ (~ In model (map fst ModelTranslationTable) ->
        translateVertexModel model = model).
Proof.
  split; [apply translateVertexModel_refines|]. split.
  - intros mapped Hin. simpl in Hin.
    destruct Hin as [E|[E|[E|[]]]]; inversion E; subst; reflexivity.
  - intros Hnot. unfold translateVertexModel.
    repeat match goal with
    | |- context [String.eqb model ?k] =>
        destruct (String.eqb_spec model k) as [->|_];
        [exfalso; apply Hnot; simpl; tauto|]
    end.
    reflexivity.
Qed.

Lemma translateVertexModel_table_witness :
  translateVertexModel "claude-3-opus-20240229" = "claude-3-opus@20240229"
  /\ translateVertexModel "claude-2.1" = "claude-2.1".
Proof.
  split.
  - apply (proj1 (proj2 (translateVertexModel_table "claude-3-opus-20240229"))).
    simpl. tauto.
  - apply (proj2 (proj2 (translateVertexModel_table "claude-2.1"))).
    simpl. intros [E|[E|[E|[]]]]; discriminate E.
Defined.

(** ** Headers and setters *)

Lemma req_set_Header_lookup key value req :
  req_Header (req_set_Header key value req) !! CanonicalMIMEHeaderKey key
  = Some [value].
Proof. unfold req_set_Header, Header_Set. simpl. apply lookup_insert_eq. Qed.

Lemma req_set_Header_lookup_ne key value req k :
  CanonicalMIMEHeaderKey key <> k ->
  req_Header (req_set_Header key value req) !! k = req_Header req !! k.
Proof.
  intros Hne. unfold req_set_Header, Header_Set. simpl.
  now apply lookup_insert_ne.
Qed.

Lemma applySetters_keeps {A : Type} (f : Request -> A) setters :
  Forall (fun setter : requestSetter => forall req, f (setter req) = f req) setters ->
  forall req, f (applySetters setters req) = f req.
Proof.
  unfold applySetters.
  induction 1 as [|setter setters Hs _ IH]; intros req; simpl; [reflexivity|].
  now rewrite IH, Hs.
Qed.

Lemma applySetters_keepsURL setters req :
  Forall keepsURL setters -> req_URL (applySetters setters req) = req_URL req.
Proof. intros Hs. now apply (applySetters_keeps req_URL). Qed.

Lemma applySetters_keepsHeader key setters req :
  Forall (keepsHeader key) setters ->
  req_Header (applySetters setters req) !! key = req_Header req !! key.
Proof.
  intros Hs. now apply (applySetters_keeps (fun r => req_Header r !! key)).
Qed.

Lemma withBetaVersion_keepsURL version : keepsURL (withBetaVersion version).
Proof. intros req. reflexivity. Qed.

Lemma withBetaVersion_keepsHeader version key :
  key <> "Anthropic-Beta" -> keepsHeader key (withBetaVersion version).
Proof.
  intros Hne req. unfold withBetaVersion.
  apply req_set_Header_lookup_ne.
  change (CanonicalMIMEHeaderKey "anthropic-beta") with "Anthropic-Beta".
  congruence.
Qed.

Lemma sample_setters_keepsURL : Forall keepsURL sample_setters.
Proof. constructor; [apply withBetaVersion_keepsURL | constructor]. Qed.

Lemma sample_setters_keepsHeader key :
  key <> "Anthropic-Beta" -> Forall (keepsHeader key) sample_setters.
Proof.
  intros Hne. constructor; [now apply withBetaVersion_keepsHeader | constructor].
Qed.

(** What [SetHeader] stores in an [httpHeader], [Header] reads back. *)
Lemma httpHeader_SetHeader_Header (h : httpHeader) (header : Header) :
  httpHeader_Header (SetHeader header h) = header.
Proof. reflexivity. Qed.

(** The model run on the concrete runtime. *)
Example CanonicalMIMEHeaderKey_beta :
  CanonicalMIMEHeaderKey "anthropic-beta" = "Anthropic-Beta"
  /\ CanonicalMIMEHeaderKey "x-API-key" = "X-Api-Key"
  /\ CanonicalMIMEHeaderKey "not a token" = "not a token".
Proof. repeat split; reflexivity. Qed.

Example sample_newStreamRequest_headers :
  match snd (sample_newStreamRequest (gateway_client 200 []) tt "POST" "/messages"
               (anyVertex sample_body) sample_setters) with
  | Ok req =>
      req_URL req = "https://api.example.com/claude-3-haiku@20240307:messages"
      /\ req_Header req !! "Accept" = Some ["text/event-stream"]
      /\ req_Header req !! "Authorization" = Some ["Bearer sk-test"]
      /\ req_Header req !! "Anthropic-Beta" = Some ["tools"]
      /\ req_Header req !! "X-Api-Key" = None
  | _ => False
  end.
Proof. vm_compute. repeat split; reflexivity. Qed.

(** ** client.go: the request builder *)

Section BuilderProperties.

Context {resolver : BackendResolver}.
Context {B P : Type} {support : VertexAISupport B} {lib : RequestLib B P}.

(** The request as it stands when the setters are about to run. *)
Lemma newRequest_built c ctx method urlSuffix body setters model body' reqBody url :
  negotiateBody c body = inl (model, body') ->
  (if isNil body' then Ok [] else marshalBody body') = Ok reqBody ->
  fullURL c urlSuffix model = Ok url ->
  http_validate ctx method url = None ->
  newRequest c ctx method urlSuffix body setters
  = (body',
     Ok (applySetters setters
           (setAuthHeaders c
              (req_set_Header "Accept" "application/json; charset=utf-8"
                 (req_set_Header "Content-Type" "application/json; charset=utf-8"
                    {| req_Method := if String.eqb method "" then "GET" else method;
                       req_URL := url; req_Header := ∅;
                       req_Body := reqBody |}))))).
Proof.
  intros Hneg Hbody Hurl Hval. unfold newRequest.
  rewrite Hneg, Hbody. cbn [bind]. rewrite Hurl. cbn [bind].
  unfold http_NewRequestWithContext. rewrite Hval. reflexivity.
Qed.

Lemma setAuthHeaders_URL c req : req_URL (setAuthHeaders c req) = req_URL req.
Proof. unfold setAuthHeaders. now destruct (isVertexAI _). Qed.

Lemma setAuthHeaders_Body c req : req_Body (setAuthHeaders c req) = req_Body req.
Proof. unfold setAuthHeaders. now destruct (isVertexAI _). Qed.

Lemma negotiateBody_direct c (body : any B P) :
  isVertexAI (APIVersion (config c)) = false ->
  negotiateBody c body = inl ("", body).
Proof. intros Hd. unfold negotiateBody. now rewrite Hd. Qed.

Lemma negotiateBody_nil c : negotiateBody c (@anyNil B P) = inl ("", anyNil).
Proof. unfold negotiateBody. now rewrite andb_false_r. Qed.

Lemma negotiateBody_vertex c b :
  isVertexAI (APIVersion (config c)) = true ->
  negotiateBody (P:=P) c (anyVertex b)
  = inl (GetModel b, anyVertex (SetAnthropicVersion (APIVersion (config c)) b)).
Proof. intros Hg. unfold negotiateBody. now rewrite Hg. Qed.

Lemma fullURL_gateway c a rest model :
  isVertexAI (APIVersion (config c)) = true ->
  fullURL c (String a rest) model
  = Ok (BaseURL (config c) +:+ "/" +:+ translateVertexModel model +:+ ":" +:+ rest).
Proof. intros Hg. unfold fullURL. now rewrite Hg. Qed.

Lemma fullURL_direct c urlSuffix model :
  isVertexAI (APIVersion (config c)) = false ->
  fullURL c urlSuffix model = Ok (BaseURL (config c) +:+ urlSuffix).
Proof. intros Hd. unfold fullURL. now rewrite Hd. Qed.

(** C1 (amended). In gateway mode, a request built with path suffix
    "/v1/messages" for a body whose model is "claude-3-haiku-20240307" has
    the URL base + "/claude-3-haiku@20240307:v1/messages": only the
    leading slash of the suffix is replaced by a colon, the translated
    model stands between the base URL and the rest of the suffix, so the
    URL ends with "claude-3-haiku@20240307:v1/messages". *)
Theorem newRequest_gateway_url c ctx method (b : B) setters reqBody :
  isVertexAI (APIVersion (config c)) = true ->
  GetModel b = "claude-3-haiku-20240307" ->
  json_Marshal (anyVertex (SetAnthropicVersion (APIVersion (config c)) b))
    = inl reqBody ->
  http_validate ctx method
    (BaseURL (config c) +:+ "/claude-3-haiku@20240307:v1/messages") = None ->
  Forall keepsURL setters ->
  fullURL c "/v1/messages" "claude-3-haiku-20240307"
    = Ok (BaseURL (config c) +:+ "/claude-3-haiku@20240307:v1/messages")
  /\ exists req,
       snd (newRequest c ctx method "/v1/messages" (anyVertex b) setters) = Ok req
       /\ req_URL req = BaseURL (config c) +:+ "/claude-3-haiku@20240307:v1/messages"
       /\ HasSuffix (req_URL req) "claude-3-haiku@20240307:v1/messages" = true.
Proof.
  intros Hg Hmodel Hmarshal Hval Hset.
  assert (Hurl : fullURL c "/v1/messages" "claude-3-haiku-20240307"
                 = Ok (BaseURL (config c) +:+ "/claude-3-haiku@20240307:v1/messages")).
  { now rewrite fullURL_gateway. }
  split; [exact Hurl|].
  eexists. split.
  - erewrite newRequest_built;
      [reflexivity | now apply negotiateBody_vertex | | rewrite Hmodel; exact Hurl
      | exact Hval].
    cbn [isNil]. unfold marshalBody. now rewrite Hmarshal.
  - rewrite applySetters_keepsURL, setAuthHeaders_URL by assumption.
    cbn [req_URL req_set_Header]. split; [reflexivity|].
    change (BaseURL (config c) +:+ "/claude-3-haiku@20240307:v1/messages")
      with (BaseURL (config c) +:+ ("/" +:+ "claude-3-haiku@20240307:v1/messages")).
    rewrite <- append_assoc. apply HasSuffix_append.
Qed.

(** C2. In gateway mode, a non-nil body is put to the capability test: a
    body with the capability gives its model and receives the protocol
    version; a body without it makes both builders return the error
    "this call not supported by the Vertex AI API", and no request. *)
Theorem newRequest_gateway_capability c :
  isVertexAI (APIVersion (config c)) = true ->
  (forall b : B,
     negotiateBody (P:=P) c (anyVertex b)
     = inl (GetModel b, anyVertex (SetAnthropicVersion (APIVersion (config c)) b)))
  /\ (forall ctx method urlSuffix (p : P) setters,
        newRequest c ctx method urlSuffix (anyOther p) setters
        = (anyOther p, Err (errorString "this call not supported by the Vertex AI API"))
        /\ newStreamRequest c ctx method urlSuffix (anyOther p) setters
           = (anyOther p, Err (errorString "this call not supported by the Vertex AI API"))).
Proof.
  intros Hg. split; [intros b; now apply negotiateBody_vertex|].
  intros ctx method urlSuffix p setters.
  assert (Hnew : newRequest c ctx method urlSuffix (anyOther p) setters
                 = (anyOther p,
                    Err (errorString "this call not supported by the Vertex AI API"))).
  { unfold newRequest, negotiateBody. now rewrite Hg. }
  split; [exact Hnew|].
  unfold newStreamRequest. now rewrite Hnew.
Qed.

(** C6. In direct mode the URL of the built request is the base URL
    followed by the path suffix as it is, whatever the model; the body is
    not asked for its model and is left as it was; and the request has
    the header X-Api-Key with the resolved key and the header
    Anthropic-Version with the configured protocol version (the setters
    being ones that leave the URL and these two headers alone). *)
Theorem newRequest_direct c ctx method urlSuffix (body : any B P) setters reqBody :
  isVertexAI (APIVersion (config c)) = false ->
  (if isNil body then Ok [] else marshalBody body) = Ok reqBody ->
  http_validate ctx method (BaseURL (config c) +:+ urlSuffix) = None ->
  Forall keepsURL setters ->
  Forall (keepsHeader "X-Api-Key") setters ->
  Forall (keepsHeader "Anthropic-Version") setters ->
  (forall model, fullURL c urlSuffix model = Ok (BaseURL (config c) +:+ urlSuffix))
  /\ exists req,
       newRequest c ctx method urlSuffix body setters = (body, Ok req)
       /\ req_URL req = BaseURL (config c) +:+ urlSuffix
       /\ req_Header req !! "X-Api-Key" = Some [resolveAPIKey c]
       /\ req_Header req !! "Anthropic-Version" = Some [APIVersion (config c)].
Proof.
  intros Hd Hbody Hval Hurl Hkey Hver.
  split; [intros model; now apply fullURL_direct|].
  eexists. split.
  - eapply newRequest_built;
      [now apply negotiateBody_direct | exact Hbody | now apply fullURL_direct
      | exact Hval].
  - rewrite applySetters_keepsURL, setAuthHeaders_URL by assumption.
    split; [reflexivity|].
    rewrite !applySetters_keepsHeader by assumption.
    unfold setAuthHeaders. rewrite Hd. split.
    + rewrite req_set_Header_lookup_ne by discriminate.
      exact (req_set_Header_lookup "X-Api-Key" _ _).
    + exact (req_set_Header_lookup "Anthropic-Version" _ _).
Qed.

Lemma streamHeaders_Header req :
  req_Header (streamHeaders req)
  = <["Connection" := ["keep-alive"]]>
      (<["Cache-Control" := ["no-cache"]]>
         (<["Accept" := ["text/event-stream"]]> (req_Header req))).
Proof. reflexivity. Qed.

(** C8. On the same inputs the streaming builder leaves the body as the
    standard builder leaves it and fails or panics exactly as it does;
    when the standard builder returns a request, the streaming builder
    returns that request with Accept set to text/event-stream,
    Cache-Control to no-cache and Connection to keep-alive: method, URL
    and body are the same, and so is every other header, among them
    Authorization, X-Api-Key and Anthropic-Version. *)
Theorem newStreamRequest_refines c ctx method urlSuffix (body : any B P) setters :
  fst (newStreamRequest c ctx method urlSuffix body setters)
  = fst (newRequest c ctx method urlSuffix body setters)
  /\ match snd (newRequest c ctx method urlSuffix body setters) with
     | Ok req =>
         exists sreq,
           snd (newStreamRequest c ctx method urlSuffix body setters) = Ok sreq
           /\ req_Method sreq = req_Method req
           /\ req_URL sreq = req_URL req
           /\ req_Body sreq = req_Body req
           /\ req_Header sreq !! "Accept" = Some ["text/event-stream"]
           /\ req_Header sreq !! "Cache-Control" = Some ["no-cache"]
           /\ req_Header sreq !! "Connection" = Some ["keep-alive"]
           /\ (forall key,
                 key <> "Accept" -> key <> "Cache-Control" -> key <> "Connection" ->
                 req_Header sreq !! key = req_Header req !! key)
           /\ req_Header sreq !! "Authorization" = req_Header req !! "Authorization"
           /\ req_Header sreq !! "X-Api-Key" = req_Header req !! "X-Api-Key"
           /\ req_Header sreq !! "Anthropic-Version"
              = req_Header req !! "Anthropic-Version"
     | Err e => snd (newStreamRequest c ctx method urlSuffix body setters) = Err e
     | Panic msg =>
         snd (newStreamRequest c ctx method urlSuffix body setters) = Panic msg
     end.
Proof.
  unfold newStreamRequest.
  destruct (newRequest c ctx method urlSuffix body setters) as [body' [req|e|msg]];
    cbn [fst snd bind]; split; try reflexivity.
  assert (Hother : forall key,
             key <> "Accept" -> key <> "Cache-Control" -> key <> "Connection" ->
             req_Header (streamHeaders req) !! key = req_Header req !! key).
  { intros key H1 H2 H3. rewrite streamHeaders_Header.
    rewrite !lookup_insert_ne by congruence. reflexivity. }
  exists (streamHeaders req). rewrite streamHeaders_Header.
  repeat split; try (apply Hother; discriminate).
  - rewrite !lookup_insert_ne by discriminate. apply lookup_insert_eq.
  - rewrite lookup_insert_ne by discriminate. apply lookup_insert_eq.
  - apply lookup_insert_eq.
Qed.

(** C10. In gateway mode a nil body skips the capability test: the model
    is empty and the body stays nil, the builder never returns the error
    of an unsupported body, and when the request constructor accepts the
    method and the URL the builder returns a request whose URL is
    base + "/:" + the path suffix without its first byte. *)
Theorem newRequest_gateway_nil_body c :
  isVertexAI (APIVersion (config c)) = true ->
  negotiateBody c (@anyNil B P) = inl ("", anyNil)
  /\ (forall ctx method urlSuffix setters,
        snd (newRequest c ctx method urlSuffix anyNil setters)
        <> Err (errorString "this call not supported by the Vertex AI API"))
  /\ (forall ctx method a rest setters,
        http_validate ctx method (BaseURL (config c) +:+ "/:" +:+ rest) = None ->
        Forall keepsURL setters ->
        exists req,
          newRequest c ctx method (String a rest) anyNil setters = (anyNil, Ok req)
          /\ req_URL req = BaseURL (config c) +:+ "/:" +:+ rest).
Proof.
  intros Hg. split; [apply negotiateBody_nil|]. split.
  - intros ctx method urlSuffix setters.
    unfold newRequest. rewrite negotiateBody_nil. cbn [snd isNil bind].
    destruct (fullURL c urlSuffix "") as [url|e|msg] eqn:Hurl; cbn [bind].
    + unfold http_NewRequestWithContext.
      destruct (http_validate ctx method url); cbn [bind]; discriminate.
    + unfold fullURL in Hurl.
      destruct (isVertexAI _); [destruct urlSuffix|]; discriminate.
    + discriminate.
  - intros ctx method a rest setters Hval Hset.
    eexists. split.
    + eapply newRequest_built;
        [apply negotiateBody_nil | reflexivity | now apply fullURL_gateway
        | exact Hval].
    + now rewrite applySetters_keepsURL, setAuthHeaders_URL.
Qed.

End BuilderProperties.

(** ** client.go: the dispatcher and the error decoder *)

Section DispatcherProperties.

Context {resolver : BackendResolver} {shapes : ErrorShapeLib}.
Context {V : Type} {response : Response V} {decoder : DecoderLib V}.

Lemma status_test_false StatusCode :
  successStatus StatusCode ->
  (StatusCode <? StatusOK)%Z || (StatusBadRequest <=? StatusCode)%Z = false.
Proof.
  unfold successStatus, StatusOK, StatusBadRequest. intros Hs.
  apply orb_false_iff. split; [apply Z.ltb_ge | apply Z.leb_gt]; lia.
Qed.

Lemma status_test_true StatusCode :
  ~ successStatus StatusCode ->
  (StatusCode <? StatusOK)%Z || (StatusBadRequest <=? StatusCode)%Z = true.
Proof.
  unfold successStatus, StatusOK, StatusBadRequest. intros Hs.
  apply orb_true_iff.
  destruct (Z.ltb_spec StatusCode 200); [now left | right].
  apply Z.leb_le. lia.
Qed.

Lemma handlerRequestError_success c resp :
  successStatus (resp_StatusCode resp) -> handlerRequestError c resp = None.
Proof.
  intros Hs. unfold handlerRequestError. cbv zeta.
  now rewrite status_test_false.
Qed.

Lemma handlerRequestError_failure c resp :
  ~ successStatus (resp_StatusCode resp) ->
  exists err, handlerRequestError c resp = Some err.
Proof.
  intros Hs. unfold handlerRequestError, io_ReadAll. cbv zeta.
  rewrite status_test_true by assumption.
  destruct (rd_err (resp_Body resp)); [eauto|].
  destruct (IsVertexAI c && _).
  - destruct (json_Unmarshal_VertexAIErrorResponse _) as [errRes [e|]];
      [eauto | destruct (ver_Error errRes); eauto].
  - destruct (json_Unmarshal_ErrorResponse _) as [errRes [e|]];
      [eauto | destruct (er_Error errRes); eauto].
Qed.

(** When the body cannot be read, the error carries the status code and
    the read failure, and no body. *)
Lemma handlerRequestError_read_failure c resp e :
  ~ successStatus (resp_StatusCode resp) ->
  rd_err (resp_Body resp) = Some e ->
  handlerRequestError c resp
  = Some (RequestErrorPtr (resp_StatusCode resp) (Some e) []).
Proof.
  intros Hs He. unfold handlerRequestError, io_ReadAll. cbv zeta.
  rewrite status_test_true by assumption. now rewrite He.
Qed.

(** C3. Under the gateway variant, a 401 response whose body is read and
    parses as the gateway error shape with a populated inner error is
    decoded into the error that formats the status code 401 and wraps the
    parsed inner error with its type and message; the result is not a raw
    fallback error. *)
Theorem handlerRequestError_gateway_unauthorized c resp errRes inner :
  IsVertexAI c = true ->
  resp_StatusCode resp = 401%Z ->
  rd_err (resp_Body resp) = None ->
  json_Unmarshal_VertexAIErrorResponse (rd_data (resp_Body resp)) = (errRes, None) ->
  ver_Error errRes = Some inner ->
  handlerRequestError c resp = Some (wrapVertexAPIError 401 inner)
  /\ (forall StatusCode Err RawBody,
        handlerRequestError c resp <> Some (RequestErrorPtr StatusCode Err RawBody)).
Proof.
  intros Hg Hst Hread Hparse Hinner.
  assert (Hres : handlerRequestError c resp = Some (wrapVertexAPIError 401 inner)).
  { unfold handlerRequestError, io_ReadAll. cbv zeta.
    rewrite Hst, Hread, Hg, Hparse, Hinner. reflexivity. }
  split; [exact Hres|].
  intros StatusCode Err RawBody. rewrite Hres. discriminate.
Qed.

(** C4. For a status code outside the success range whose body is read,
    when the body does not parse as the error shape that is tried (the
    gateway shape for a gateway 401, the standard shape otherwise), or
    parses with a nil inner error, the decoder returns the raw fallback
    error with the status code of the response, the bytes of the body as
    they were read, and the parse failure when there is one. *)
Theorem handlerRequestError_raw_fallback c resp :
  ~ successStatus (resp_StatusCode resp) ->
  rd_err (resp_Body resp) = None ->
  (IsVertexAI c && (resp_StatusCode resp =? 401)%Z = true ->
   forall errRes err,
     json_Unmarshal_VertexAIErrorResponse (rd_data (resp_Body resp)) = (errRes, err) ->
     err <> None \/ ver_Error errRes = None ->
     handlerRequestError c resp
     = Some (RequestErrorPtr (resp_StatusCode resp) err (rd_data (resp_Body resp))))
  /\ (IsVertexAI c && (resp_StatusCode resp =? 401)%Z = false ->
      forall errRes err,
        json_Unmarshal_ErrorResponse (rd_data (resp_Body resp)) = (errRes, err) ->
        err <> None \/ er_Error errRes = None ->
        handlerRequestError c resp
        = Some (RequestErrorPtr (resp_StatusCode resp) err (rd_data (resp_Body resp)))).
Proof.
  intros Hs Hread.
  split; intros Hbranch errRes err Hparse Hfail;
    unfold handlerRequestError, io_ReadAll; cbv zeta;
    rewrite status_test_true by assumption;
    rewrite Hread, Hbranch, Hparse.
  - destruct err as [e|]; [reflexivity|].
    destruct Hfail as [Hne|Hnil]; [congruence | now rewrite Hnil].
  - destruct err as [e|]; [reflexivity|].
    destruct Hfail as [Hne|Hnil]; [congruence | now rewrite Hnil].
Qed.

Lemma sendRequest_received c req v res :
  HTTPClient_Do (config c) req = inl res ->
  sendRequest c req v
  = match handlerRequestError c res with
    | Some err => (SetHeader (resp_Header res) v, Some err)
    | None => Decoder_Decode (resp_Body res) (SetHeader (resp_Header res) v)
    end.
Proof. intros Hdo. unfold sendRequest. now rewrite Hdo. Qed.

(** C5. Once a response is received, the result object the rest of the
    call works on, and returns, is the caller's object with the response
    headers stored in it: an error status returns the decoder's error
    together with that object, a success status hands that object to
    the JSON decoder. In particular, for a success status whose body is
    not a well-formed JSON value, the call returns the decoder's error
    and the object with the response headers stored. *)
Theorem sendRequest_headers_first c req v res :
  HTTPClient_Do (config c) req = inl res ->
  match handlerRequestError c res with
  | Some err => sendRequest c req v = (SetHeader (resp_Header res) v, Some err)
  | None =>
      sendRequest c req v
      = Decoder_Decode (resp_Body res) (SetHeader (resp_Header res) v)
  end
  /\ (forall e,
        successStatus (resp_StatusCode res) ->
        json_readValue (resp_Body res) = inr e ->
        sendRequest c req v = (SetHeader (resp_Header res) v, Some e)).
Proof.
  intros Hdo. split.
  - rewrite (sendRequest_received _ _ _ _ Hdo).
    now destruct (handlerRequestError c res).
  - intros e Hs Hbad. rewrite (sendRequest_received _ _ _ _ Hdo).
    rewrite handlerRequestError_success by assumption.
    unfold Decoder_Decode. now rewrite Hbad.
Qed.

(** C9. The status check returns no error exactly for the status codes
    200 through 399; for these the dispatcher goes on to decode the body
    into the result object, and for every other status code it returns
    what the error decoder made of the response, without decoding the
    body into the result object. *)
Theorem handlerRequestError_status_range c resp :
  (handlerRequestError c resp = None <-> successStatus (resp_StatusCode resp))
  /\ (forall req v,
        HTTPClient_Do (config c) req = inl resp ->
        (successStatus (resp_StatusCode resp) ->
         sendRequest c req v
         = Decoder_Decode (resp_Body resp) (SetHeader (resp_Header resp) v))
        /\ (~ successStatus (resp_StatusCode resp) ->
            exists err,
              handlerRequestError c resp = Some err
              /\ sendRequest c req v = (SetHeader (resp_Header resp) v, Some err))).
Proof.
  split.
  - split; [|apply handlerRequestError_success].
    intros Hnone.
    destruct (Z_le_dec 200 (resp_StatusCode resp)) as [Hlo|Hlo];
      [destruct (Z_le_dec (resp_StatusCode resp) 399) as [Hhi|Hhi]|];
      [split; assumption | |];
      (destruct (handlerRequestError_failure c resp) as [err Herr];
       [unfold successStatus; lia | congruence]).
  - intros req v Hdo. rewrite (sendRequest_received _ _ _ _ Hdo). split.
    + intros Hs. now rewrite handlerRequestError_success.
    + intros Hs. destruct (handlerRequestError_failure c resp Hs) as [err Herr].
      exists err. now rewrite Herr.
Qed.

End DispatcherProperties.

(** ** The properties on the concrete runtime *)

Lemma newRequest_gateway_url_witness :
  exists req,
    snd (sample_newRequest (gateway_client 200 []) tt "POST" "/v1/messages"
           (anyVertex sample_body) sample_setters) = Ok req
    /\ req_URL req = "https://api.example.com/claude-3-haiku@20240307:v1/messages"
    /\ HasSuffix (req_URL req) "claude-3-haiku@20240307:v1/messages" = true.
Proof.
  exact (proj2 (newRequest_gateway_url
                  (resolver := sample_resolver) (lib := sample_lib)
                  (gateway_client 200 []) tt "POST" sample_body sample_setters _
                  eq_refl eq_refl eq_refl eq_refl sample_setters_keepsURL)).
Defined.

(** With the path suffix "/v1/messages" the URL does not end with
    "claude-3-haiku@20240307:messages": the "v1/" of the suffix stays
    between the colon and "messages". *)
Lemma newRequest_gateway_url_counterexample :
  exists req,
    snd (sample_newRequest (gateway_client 200 []) tt "POST" "/v1/messages"
           (anyVertex sample_body) []) = Ok req
    /\ req_URL req = "https://api.example.com/claude-3-haiku@20240307:v1/messages"
    /\ HasSuffix (req_URL req) "claude-3-haiku@20240307:messages" = false.
Proof. eexists. split; [reflexivity|]. split; reflexivity. Qed.

Lemma newRequest_gateway_capability_witness :
  sample_newRequest (gateway_client 200 []) tt "POST" "/v1/messages"
    (anyOther "plain text") sample_setters
  = (anyOther "plain text",
     Err (errorString "this call not supported by the Vertex AI API")).
Proof.
  exact (proj1 (proj2 (newRequest_gateway_capability
                         (resolver := sample_resolver) (lib := sample_lib)
                         (gateway_client 200 []) eq_refl)
                  tt "POST" "/v1/messages" "plain text" sample_setters)).
Defined.

Lemma handlerRequestError_gateway_unauthorized_witness :
  sample_handlerRequestError (gateway_client 401 sample_error_body)
    (sample_response 401 sample_error_body)
  = Some (wrapVertexAPIError 401
            {| vx_Type := "authentication_error"; vx_Message := "invalid x-api-key" |}).
Proof.
  exact (proj1 (handlerRequestError_gateway_unauthorized
                  (resolver := sample_resolver) (shapes := sample_shapes)
                  (gateway_client 401 sample_error_body)
                  (sample_response 401 sample_error_body)
                  _ _ eq_refl eq_refl eq_refl eq_refl eq_refl)).
Defined.

Lemma not_success_401 : ~ successStatus 401.
Proof. unfold successStatus. lia. Defined.

Lemma not_success_502 : ~ successStatus 502.
Proof. unfold successStatus. lia. Defined.

Lemma not_success_400 : ~ successStatus 400.
Proof. unfold successStatus. lia. Defined.

Lemma handlerRequestError_raw_fallback_witness :
  sample_handlerRequestError (gateway_client 401 sample_html_body)
    (sample_response 401 sample_html_body)
  = Some (RequestErrorPtr 401 (Some (libError "invalid character")) sample_html_body)
  /\ sample_handlerRequestError (direct_client 502 sample_null_body)
       (sample_response 502 sample_null_body)
     = Some (RequestErrorPtr 502 None sample_null_body).
Proof.
  split.
  - refine (proj1 (handlerRequestError_raw_fallback
                     (resolver := sample_resolver) (shapes := sample_shapes)
                     (gateway_client 401 sample_html_body)
                     (sample_response 401 sample_html_body)
                     not_success_401 eq_refl)
              eq_refl _ _ eq_refl (or_introl _)).
    discriminate.
  - exact (proj2 (handlerRequestError_raw_fallback
                    (resolver := sample_resolver) (shapes := sample_shapes)
                    (direct_client 502 sample_null_body)
                    (sample_response 502 sample_null_body)
                    not_success_502 eq_refl)
             eq_refl _ _ eq_refl (or_intror eq_refl)).
Defined.

Lemma success_200 : successStatus 200.
Proof. unfold successStatus. lia. Defined.

Lemma success_399 : successStatus 399.
Proof. unfold successStatus. lia. Defined.

Lemma sendRequest_headers_first_witness :
  sample_sendRequest (direct_client 200 sample_html_body) sample_request sample_result
  = (SetHeader sample_headers sample_result,
     Some (libError "invalid character looking for beginning of value"))
  /\ mresp_httpHeader
       (fst (sample_sendRequest (direct_client 200 sample_html_body) sample_request
               sample_result))
     !! "Anthropic-Ratelimit-Requests-Remaining" = Some ["99"].
Proof.
  pose proof (proj2 (sendRequest_headers_first
                       (resolver := sample_resolver) (shapes := sample_shapes)
                       (decoder := sample_decoder)
                       (direct_client 200 sample_html_body) sample_request
                       sample_result (sample_response 200 sample_html_body) eq_refl)
                _ success_200 eq_refl) as Hsend.
  split; [exact Hsend|].
  unfold sample_sendRequest. rewrite Hsend. reflexivity.
Defined.

Lemma newRequest_direct_witness :
  exists req,
    sample_newRequest (direct_client 200 []) tt "POST" "/v1/messages"
      (anyVertex sample_body) sample_setters = (anyVertex sample_body, Ok req)
    /\ req_URL req = "https://api.example.com/v1/messages"
    /\ req_Header req !! "X-Api-Key" = Some ["sk-test"]
    /\ req_Header req !! "Anthropic-Version" = Some ["2023-06-01"].
Proof.
  refine (proj2 (newRequest_direct (resolver := sample_resolver) (lib := sample_lib)
                   (direct_client 200 []) tt "POST" "/v1/messages"
                   (anyVertex sample_body) sample_setters _
                   eq_refl eq_refl eq_refl sample_setters_keepsURL
                   (sample_setters_keepsHeader _ _) (sample_setters_keepsHeader _ _)));
    discriminate.
Defined.

Lemma handlerRequestError_status_range_witness :
  sample_sendRequest (direct_client 399 sample_null_body) sample_request sample_result
  = Decoder_Decode (decoder := sample_decoder)
      (resp_Body (sample_response 399 sample_null_body))
      (SetHeader sample_headers sample_result)
  /\ exists err,
       sample_handlerRequestError (direct_client 400 sample_null_body)
         (sample_response 400 sample_null_body) = Some err
       /\ sample_sendRequest (direct_client 400 sample_null_body) sample_request
            sample_result
          = (SetHeader sample_headers sample_result, Some err).
Proof.
  split.
  - exact (proj1 (proj2 (handlerRequestError_status_range
                           (resolver := sample_resolver) (shapes := sample_shapes)
                           (decoder := sample_decoder)
                           (direct_client 399 sample_null_body)
                           (sample_response 399 sample_null_body))
                    sample_request sample_result eq_refl) success_399).
  - exact (proj2 (proj2 (handlerRequestError_status_range
                           (resolver := sample_resolver) (shapes := sample_shapes)
                           (decoder := sample_decoder)
                           (direct_client 400 sample_null_body)
                           (sample_response 400 sample_null_body))
                    sample_request sample_result eq_refl) not_success_400).
Defined.

Lemma newRequest_gateway_nil_body_witness :
  exists req,
    sample_newRequest (gateway_client 200 []) tt "GET" "/v1/models" anyNil sample_setters
    = (anyNil, Ok req)
    /\ req_URL req = "https://api.example.com/:v1/models".
Proof.
  exact (proj2 (proj2 (newRequest_gateway_nil_body
                         (resolver := sample_resolver) (lib := sample_lib)
                         (gateway_client 200 []) eq_refl))
           tt "GET" "/"%char "v1/models" sample_setters eq_refl
           sample_setters_keepsURL).
Defined.


(** * Further properties of the code *)

(** ** common.go *)

(** X19. Translating twice is translating once: the gateway identifiers are
    not keys of the [switch]. *)
Theorem translateVertexModel_idempotent (model : string) :
  translateVertexModel (translateVertexModel model) = translateVertexModel model.
Proof.
  unfold translateVertexModel at 2 3.
  repeat match goal with
  | |- context [String.eqb model ?k] => destruct (String.eqb_spec model k) as [->|?]
  end; try reflexivity.
  unfold translateVertexModel.
  repeat match goal with
  | Hne : model <> ?k |- context [String.eqb model ?k] =>
      destruct (String.eqb_spec model k) as [?|_]; [contradiction|]
  end.
  reflexivity.
Qed.

(** ** client.go: the request builder *)

Lemma sample_setters_keepsBody : Forall keepsBody sample_setters.
Proof. constructor; [intros req; reflexivity | constructor]. Qed.

Lemma applySetters_app setters1 setters2 req :
  applySetters (setters1 ++ setters2) req
  = applySetters setters2 (applySetters setters1 req).
Proof. unfold applySetters. apply fold_left_app. Qed.

Section BuilderExtras.

Context {resolver : BackendResolver}.
Context {B P : Type} {support : VertexAISupport B} {lib : RequestLib B P}.

(** What a returned request is made of. *)
Lemma newRequest_Ok_inv c ctx method urlSuffix (body : any B P) setters req :
  snd (newRequest c ctx method urlSuffix body setters) = Ok req ->
  exists model body' reqBody url,
    negotiateBody c body = inl (model, body')
    /\ (if isNil body' then Ok [] else marshalBody body') = Ok reqBody
    /\ fullURL c urlSuffix model = Ok url
    /\ http_validate ctx method url = None
    /\ req = applySetters setters
               (setAuthHeaders c
                  (req_set_Header "Accept" "application/json; charset=utf-8"
                     (req_set_Header "Content-Type" "application/json; charset=utf-8"
                        {| req_Method := if String.eqb method "" then "GET" else method;
                           req_URL := url; req_Header := ∅;
                           req_Body := reqBody |}))).
Proof.
  unfold newRequest.
  destruct (negotiateBody c body) as [[model body']|e] eqn:Hneg; cbn [snd];
    [|discriminate].
  destruct (if isNil body' then Ok [] else marshalBody body') as [reqBody|e|msg]
    eqn:Hbody; cbn [bind]; try discriminate.
  destruct (fullURL c urlSuffix model) as [url|e|msg] eqn:Hurl; cbn [bind];
    try discriminate.
  unfold http_NewRequestWithContext.
  destruct (http_validate ctx method url) as [msg|] eqn:Hval; cbn [bind];
    [discriminate|].
  intros Hreq. injection Hreq as <-.
  exists model, body', reqBody, url. repeat split; reflexivity || assumption.
Qed.


Lemma newRequest_fst c ctx method urlSuffix (body : any B P) setters model body' :
  negotiateBody c body = inl (model, body') ->
  fst (newRequest c ctx method urlSuffix body setters) = body'.
Proof. intros Hneg. unfold newRequest. now rewrite Hneg. Qed.

Lemma newRequest_app_setters c ctx method urlSuffix (body : any B P) setters1 setters2 :
  newRequest c ctx method urlSuffix body (setters1 ++ setters2)
  = (fst (newRequest c ctx method urlSuffix body setters1),
     (req <- snd (newRequest c ctx method urlSuffix body setters1) ;;
      Ok (applySetters setters2 req))%result).
Proof.
  unfold newRequest.
  destruct (negotiateBody c body) as [[model body']|e]; cbn [fst snd bind];
    [|reflexivity].
  f_equal.
  destruct (if isNil body' then Ok [] else marshalBody body'); cbn [bind];
    try reflexivity.
  destruct (fullURL c urlSuffix model); cbn [bind]; try reflexivity.
  destruct (http_NewRequestWithContext ctx method a0 a); cbn [bind];
    try reflexivity.
  now rewrite applySetters_app.
Qed.

Lemma setAuthHeaders_lookup_other c req key :
  key <> "Authorization" -> key <> "X-Api-Key" -> key <> "Anthropic-Version" ->
  req_Header (setAuthHeaders c req) !! key = req_Header req !! key.
Proof.
  intros H1 H2 H3. unfold setAuthHeaders.
  assert (Ha : CanonicalMIMEHeaderKey "Authorization" <> key)
    by (intros E; apply H1; rewrite <- E; reflexivity).
  assert (Hk : CanonicalMIMEHeaderKey "X-Api-Key" <> key)
    by (intros E; apply H2; rewrite <- E; reflexivity).
  assert (Hv : CanonicalMIMEHeaderKey "Anthropic-Version" <> key)
    by (intros E; apply H3; rewrite <- E; reflexivity).
  destruct (isVertexAI _).
  - now apply req_set_Header_lookup_ne.
  - rewrite req_set_Header_lookup_ne by assumption.
    now apply req_set_Header_lookup_ne.
Qed.

(** X2. In gateway mode, for a body with the capability, whatever its
    model and whatever the first byte of a non-empty path suffix: the
    builder returns the body with the protocol version set, and a request
    whose URL is base + "/" + the translated model + ":" + the suffix
    without its first byte. *)
Theorem newRequest_gateway_url_of_model c ctx method a rest (b : B) setters reqBody :
  isVertexAI (APIVersion (config c)) = true ->
  json_Marshal (anyVertex (SetAnthropicVersion (APIVersion (config c)) b))
    = inl reqBody ->
  http_validate ctx method
    (BaseURL (config c) +:+ "/" +:+ translateVertexModel (GetModel b) +:+ ":" +:+ rest)
    = None ->
  Forall keepsURL setters ->
  exists req,
    newRequest c ctx method (String a rest) (anyVertex b) setters
    = (anyVertex (SetAnthropicVersion (APIVersion (config c)) b), Ok req)
    /\ req_URL req
       = BaseURL (config c) +:+ "/" +:+ translateVertexModel (GetModel b) +:+ ":" +:+ rest.
Proof.
  intros Hg Hmarshal Hval Hset. eexists. split.
  - eapply newRequest_built;
      [now apply negotiateBody_vertex | | now apply fullURL_gateway | exact Hval].
    cbn [isNil]. unfold marshalBody. now rewrite Hmarshal.
  - now rewrite applySetters_keepsURL, setAuthHeaders_URL.
Qed.

(** X3. Whatever the builder returns (a request, an error or a panic), the
    caller's body after the call is: in gateway mode, a body with the
    capability with the protocol version set; in every other case, the
    body as it was. *)
Theorem newRequest_body_after c ctx method urlSuffix (body : any B P) setters :
  fst (newRequest c ctx method urlSuffix body setters)
  = if isVertexAI (APIVersion (config c)) then
      match body with
      | anyVertex b => anyVertex (SetAnthropicVersion (APIVersion (config c)) b)
      | _ => body
      end
    else body.
Proof.
  unfold newRequest, negotiateBody.
  destruct (isVertexAI (APIVersion (config c))); [|reflexivity].
  now destruct body.
Qed.

(** X4. The body of a returned request is empty for a nil body, and
    otherwise the serialization of the body as it is after the call, that
    is with the protocol version already set in gateway mode (the setters
    being ones that leave the request body alone). *)
Theorem newRequest_serialized_body c ctx method urlSuffix (body : any B P) setters req :
  snd (newRequest c ctx method urlSuffix body setters) = Ok req ->
  Forall keepsBody setters ->
  match fst (newRequest c ctx method urlSuffix body setters) with
  | anyNil => req_Body req = []
  | body' => json_Marshal body' = inl (req_Body req)
  end.
Proof.
  intros Hok Hset.
  destruct (newRequest_Ok_inv _ _ _ _ _ _ _ Hok)
    as (model & body' & reqBody & url & Hneg & Hbody & _ & _ & ->).
  rewrite (newRequest_fst _ _ _ _ _ _ _ _ Hneg).
  rewrite (applySetters_keeps req_Body) by exact Hset.
  rewrite setAuthHeaders_Body. cbn [req_Body req_set_Header].
  unfold marshalBody in Hbody.
  destruct body' as [|b|p]; cbn [isNil] in Hbody.
  - now injection Hbody as <-.
  - destruct (json_Marshal (anyVertex b)); [now injection Hbody as <- | discriminate].
  - destruct (json_Marshal (anyOther p)); [now injection Hbody as <- | discriminate].
Qed.

Lemma fullURL_not_Err c urlSuffix model e : fullURL c urlSuffix model <> Err e.
Proof.
  unfold fullURL.
  destruct (isVertexAI _); [destruct urlSuffix|]; discriminate.
Qed.

(** X5. The builder returns three errors and no other: the error of a
    gateway call whose body lacks the capability, the error of the JSON
    encoder on the body as it is after the call, and the error of the
    request constructor on the method and the URL. *)
Theorem newRequest_errors c ctx method urlSuffix (body : any B P) setters e :
  snd (newRequest c ctx method urlSuffix body setters) = Err e ->
  (e = errorString "this call not supported by the Vertex AI API"
   /\ isVertexAI (APIVersion (config c)) = true
   /\ exists p, body = anyOther p)
  \/ (exists msg,
        e = libError msg
        /\ json_Marshal (fst (newRequest c ctx method urlSuffix body setters)) = inr msg)
  \/ (exists msg url, e = libError msg /\ http_validate ctx method url = Some msg).
Proof.
  unfold newRequest, negotiateBody.
  destruct (isVertexAI (APIVersion (config c)) && negb (isNil body)) eqn:Hcheck.
  - apply andb_true_iff in Hcheck as [Hg Hnil].
    destruct body as [|b|p]; [discriminate Hnil | |].
    + cbn [fst snd isNil]. unfold marshalBody.
      destruct (json_Marshal _) as [reqBody|msg] eqn:Hm; cbn [bind].
      * destruct (fullURL c urlSuffix (GetModel b)) as [a|e0|m] eqn:Hurl; cbn [bind];
          [|now apply fullURL_not_Err in Hurl | discriminate].
        unfold http_NewRequestWithContext.
        destruct (http_validate ctx method a) as [msg|] eqn:Hval; cbn [bind];
          [|discriminate].
        intros He. injection He as <-. right. right.
        do 2 eexists. split; [reflexivity | exact Hval].
      * intros He. injection He as <-. right. left.
        eexists. split; reflexivity.
    + cbn [snd]. intros He. injection He as <-. left. eauto.
  - cbn [fst snd]. unfold marshalBody.
    destruct (isNil body) eqn:Hnil; [|destruct (json_Marshal body) as [reqBody|msg] eqn:Hm];
      cbn [bind].
    + destruct (fullURL c urlSuffix "") as [a|e0|m] eqn:Hurl; cbn [bind];
        [|now apply fullURL_not_Err in Hurl | discriminate].
      unfold http_NewRequestWithContext.
      destruct (http_validate ctx method a) as [msg|] eqn:Hval; cbn [bind];
        [|discriminate].
      intros He. injection He as <-. right. right.
        do 2 eexists. split; [reflexivity | exact Hval].
    + destruct (fullURL c urlSuffix "") as [a|e0|m] eqn:Hurl; cbn [bind];
        [|now apply fullURL_not_Err in Hurl | discriminate].
      unfold http_NewRequestWithContext.
      destruct (http_validate ctx method a) as [msg|] eqn:Hval; cbn [bind];
        [|discriminate].
      intros He. injection He as <-. right. right.
        do 2 eexists. split; [reflexivity | exact Hval].
    + intros He. injection He as <-. right. left.
        eexists. split; reflexivity.
Qed.

(** X6. In either mode a returned request has Content-Type and Accept set
    to "application/json; charset=utf-8" (the setters being ones that leave
    these two headers alone). *)
Theorem newRequest_json_headers c ctx method urlSuffix (body : any B P) setters req :
  snd (newRequest c ctx method urlSuffix body setters) = Ok req ->
  Forall (keepsHeader "Content-Type") setters ->
  Forall (keepsHeader "Accept") setters ->
  req_Header req !! "Content-Type" = Some ["application/json; charset=utf-8"]
  /\ req_Header req !! "Accept" = Some ["application/json; charset=utf-8"].
Proof.
  intros Hok Hct Hacc.
  destruct (newRequest_Ok_inv _ _ _ _ _ _ _ Hok)
    as (model & body' & reqBody & url & _ & _ & _ & _ & ->).
  rewrite !applySetters_keepsHeader by assumption.
  rewrite !setAuthHeaders_lookup_other by discriminate.
  split.
  - rewrite req_set_Header_lookup_ne by discriminate.
    exact (req_set_Header_lookup "Content-Type" _ _).
  - exact (req_set_Header_lookup "Accept" _ _).
Qed.

(** X7. The two authentication schemes exclude each other. A request built
    in gateway mode has Authorization "Bearer " + key and neither X-Api-Key
    nor Anthropic-Version; a request built in direct mode has X-Api-Key
    and Anthropic-Version and no Authorization (the setters being ones that
    leave these three headers alone). *)
Theorem newRequest_auth_headers c ctx method urlSuffix (body : any B P) setters req :
  snd (newRequest c ctx method urlSuffix body setters) = Ok req ->
  Forall (keepsHeader "Authorization") setters ->
  Forall (keepsHeader "X-Api-Key") setters ->
  Forall (keepsHeader "Anthropic-Version") setters ->
  if isVertexAI (APIVersion (config c)) then
    req_Header req !! "Authorization" = Some ["Bearer " +:+ resolveAPIKey c]
    /\ req_Header req !! "X-Api-Key" = None
    /\ req_Header req !! "Anthropic-Version" = None
  else
    req_Header req !! "Authorization" = None
    /\ req_Header req !! "X-Api-Key" = Some [resolveAPIKey c]
    /\ req_Header req !! "Anthropic-Version" = Some [APIVersion (config c)].
Proof.
  intros Hok Hauth Hkey Hver.
  destruct (newRequest_Ok_inv _ _ _ _ _ _ _ Hok)
    as (model & body' & reqBody & url & _ & _ & _ & _ & ->).
  rewrite !applySetters_keepsHeader by assumption.
  unfold setAuthHeaders.
  destruct (isVertexAI (APIVersion (config c))).
  - split; [exact (req_set_Header_lookup "Authorization" _ _)|].
    rewrite !req_set_Header_lookup_ne by discriminate.
    cbn [req_Header]. now rewrite !lookup_empty.
  - split; [|split].
    + rewrite !req_set_Header_lookup_ne by discriminate.
      cbn [req_Header]. now rewrite lookup_empty.
    + rewrite req_set_Header_lookup_ne by discriminate.
      exact (req_set_Header_lookup "X-Api-Key" _ _).
    + exact (req_set_Header_lookup "Anthropic-Version" _ _).
Qed.

(** X8. When the key resolver is set the static key is not used: two
    clients with the same protocol version, base URL and resolver build the
    same thing, whatever their static keys. *)
Theorem newRequest_apiKeyFunc c1 c2 f ctx method urlSuffix (body : any B P) setters :
  APIVersion (config c1) = APIVersion (config c2) ->
  BaseURL (config c1) = BaseURL (config c2) ->
  apiKeyFunc (config c1) = Some f ->
  apiKeyFunc (config c2) = Some f ->
  newRequest c1 ctx method urlSuffix body setters
  = newRequest c2 ctx method urlSuffix body setters.
Proof.
  intros Hver Hbase Hf1 Hf2.
  unfold newRequest, negotiateBody, fullURL, setAuthHeaders, resolveAPIKey.
  now rewrite Hver, Hbase, Hf1, Hf2.
Qed.

(** X9. The setters run last and in order: building with one more setter
    at the end of the list is building without it and then applying it to
    the returned request; the body after the call, the errors and the panic
    are the same. *)
Theorem newRequest_last_setter c ctx method urlSuffix (body : any B P) setters setter :
  newRequest c ctx method urlSuffix body (setters ++ [setter])
  = (fst (newRequest c ctx method urlSuffix body setters),
     (req <- snd (newRequest c ctx method urlSuffix body setters) ;;
      Ok (setter req))%result).
Proof. apply newRequest_app_setters. Qed.

(** X10. The streaming builder is the standard builder with the three
    stream headers set by one more setter at the end: what a caller's
    setter stored under Accept, Cache-Control or Connection is
    overwritten. *)
Theorem newStreamRequest_as_last_setter c ctx method urlSuffix (body : any B P) setters :
  newStreamRequest c ctx method urlSuffix body setters
  = newRequest c ctx method urlSuffix body (setters ++ [streamHeaders]).
Proof.
  rewrite newRequest_app_setters. unfold newStreamRequest.
  now destruct (newRequest c ctx method urlSuffix body setters).
Qed.

(** X11. A request built with [withBetaVersion version] as the last setter
    is the request built without it, with the single value [version] under
    the canonical key Anthropic-Beta (whatever was stored there is
    replaced): method, URL, body and the other headers are the same. *)
Theorem newRequest_withBetaVersion c ctx method urlSuffix (body : any B P) setters
    version req :
  snd (newRequest c ctx method urlSuffix body (setters ++ [withBetaVersion version]))
    = Ok req ->
  exists req0,
    snd (newRequest c ctx method urlSuffix body setters) = Ok req0
    /\ req_Header req = <["Anthropic-Beta" := [version]]> (req_Header req0)
    /\ req_Header req !! "Anthropic-Beta" = Some [version]
    /\ req_Method req = req_Method req0
    /\ req_URL req = req_URL req0
    /\ req_Body req = req_Body req0.
Proof.
  rewrite newRequest_app_setters. cbn [snd].
  destruct (snd (newRequest c ctx method urlSuffix body setters)) as [req0|e|msg];
    cbn [bind]; try discriminate.
  intros Hreq. injection Hreq as <-.
  exists req0. split; [reflexivity|].
  split; [reflexivity|]. split; [|repeat split].
  exact (req_set_Header_lookup "anthropic-beta" version req0).
Qed.

End BuilderExtras.

(** ** client.go: the dispatcher and the error decoder *)

Section DispatcherExtras.

Context {resolver : BackendResolver}.

(** X12. Every error the decoder returns carries the status code of the
    response. *)
Theorem handlerRequestError_status_carried {shapes : ErrorShapeLib} c resp e :
  handlerRequestError c resp = Some e ->
  error_StatusCode e = Some (resp_StatusCode resp).
Proof.
  unfold handlerRequestError, io_ReadAll. cbv zeta.
  destruct ((resp_StatusCode resp <? StatusOK)%Z
            || (StatusBadRequest <=? resp_StatusCode resp)%Z); [|discriminate].
  destruct (rd_err (resp_Body resp)) as [re|].
  - intros He. now injection He as <-.
  - destruct (IsVertexAI c && _).
    + destruct (json_Unmarshal_VertexAIErrorResponse _) as [errRes [pe|]];
        [|destruct (ver_Error errRes)]; intros He; now injection He as <-.
    + destruct (json_Unmarshal_ErrorResponse _) as [errRes [pe|]];
        [|destruct (er_Error errRes)]; intros He; now injection He as <-.
Qed.

(** X13. When reading the body of an error response fails, the bytes read
    so far are dropped and no parse is attempted: whatever they are and
    whatever the two parsers would make of them, the error is the
    [RequestError] with the status code, the read failure and no body. *)
Theorem handlerRequestError_unreadable_body (shapes1 shapes2 : ErrorShapeLib)
    c StatusCode header data e :
  ~ successStatus StatusCode ->
  let resp := {| resp_StatusCode := StatusCode; resp_Header := header;
                 resp_Body := {| rd_data := data; rd_err := Some e |} |} in
  handlerRequestError (shapes := shapes1) c resp
  = Some (RequestErrorPtr StatusCode (Some e) [])
  /\ handlerRequestError (shapes := shapes2) c resp
     = handlerRequestError (shapes := shapes1) c resp.
Proof.
  intros Hs resp.
  rewrite !(handlerRequestError_read_failure _ resp e) by (exact Hs || reflexivity).
  split; reflexivity.
Qed.

(** X14. Outside the gateway 401 case, an error response whose body is read
    and parses as the standard error shape with a populated inner error is
    decoded into the error that formats the status code and wraps the
    parsed inner error. *)
Theorem handlerRequestError_standard_decoded {shapes : ErrorShapeLib}
    c resp errRes inner :
  ~ successStatus (resp_StatusCode resp) ->
  IsVertexAI c && (resp_StatusCode resp =? 401)%Z = false ->
  rd_err (resp_Body resp) = None ->
  json_Unmarshal_ErrorResponse (rd_data (resp_Body resp)) = (errRes, None) ->
  er_Error errRes = Some inner ->
  handlerRequestError c resp = Some (wrapAPIError (resp_StatusCode resp) inner).
Proof.
  intros Hs Hbranch Hread Hparse Hinner.
  unfold handlerRequestError, io_ReadAll. cbv zeta.
  rewrite status_test_true by assumption.
  now rewrite Hread, Hbranch, Hparse, Hinner.
Qed.

(** X15. Exactly one error shape is tried, and there is no second attempt
    with the other: for a gateway 401 the result depends on the gateway
    parser only, in every other case on the standard parser only. *)
Theorem handlerRequestError_one_shape (shapes1 shapes2 : ErrorShapeLib) c resp :
  (if IsVertexAI c && (resp_StatusCode resp =? 401)%Z then
     json_Unmarshal_VertexAIErrorResponse (ErrorShapeLib := shapes1)
       (rd_data (resp_Body resp))
     = json_Unmarshal_VertexAIErrorResponse (ErrorShapeLib := shapes2)
         (rd_data (resp_Body resp))
   else
     json_Unmarshal_ErrorResponse (ErrorShapeLib := shapes1) (rd_data (resp_Body resp))
     = json_Unmarshal_ErrorResponse (ErrorShapeLib := shapes2)
         (rd_data (resp_Body resp))) ->
  handlerRequestError (shapes := shapes1) c resp
  = handlerRequestError (shapes := shapes2) c resp.
Proof.
  intros Hsame. unfold handlerRequestError, io_ReadAll. cbv zeta.
  destruct ((resp_StatusCode resp <? StatusOK)%Z || _); [|reflexivity].
  destruct (rd_err (resp_Body resp)); [reflexivity|].
  destruct (IsVertexAI c && _); now rewrite Hsame.
Qed.

Context {shapes : ErrorShapeLib}.
Context {V : Type} {response : Response V} {decoder : DecoderLib V}.

(** X16. When the transport fails there is no response: the call returns
    the transport's error as it is, and the result object is the caller's,
    with no header stored and nothing decoded into it. *)
Theorem sendRequest_transport_error c req (v : V) err :
  HTTPClient_Do (config c) req = inr err ->
  sendRequest c req v = (v, Some err).
Proof. intros Hdo. unfold sendRequest. now rewrite Hdo. Qed.

Lemma handlerRequestError_None_success c resp :
  handlerRequestError c resp = None -> successStatus (resp_StatusCode resp).
Proof.
  intros Hnone.
  destruct (Z_le_dec 200 (resp_StatusCode resp)) as [Hlo|Hlo];
    [destruct (Z_le_dec (resp_StatusCode resp) 399) as [Hhi|Hhi]|];
    [split; assumption | |];
    (destruct (handlerRequestError_failure c resp) as [err Herr];
     [unfold successStatus; lia | congruence]).
Qed.

(** X17. The call returns no error exactly when a response was received,
    its status code is in 200 through 399, its body holds a JSON value, and
    storing that value into the result object (with the headers already
    stored) raised no error. *)
Theorem sendRequest_no_error_iff c req (v : V) :
  snd (sendRequest c req v) = None
  <-> exists res value,
        HTTPClient_Do (config c) req = inl res
        /\ successStatus (resp_StatusCode res)
        /\ json_readValue (resp_Body res) = inl value
        /\ snd (json_unmarshal value (SetHeader (resp_Header res) v)) = None.
Proof.
  split.
  - destruct (HTTPClient_Do (config c) req) as [res|err] eqn:Hdo.
    + rewrite (sendRequest_received _ _ _ _ Hdo).
      destruct (handlerRequestError c res) as [err|] eqn:Hh; [discriminate|].
      apply handlerRequestError_None_success in Hh.
      unfold Decoder_Decode.
      destruct (json_readValue (resp_Body res)) as [value|e] eqn:Hval;
        [|discriminate].
      intros Hnone. exists res, value.
      split; [reflexivity|]. split; [exact Hh|]. split; [exact Hval | exact Hnone].
    + unfold sendRequest. rewrite Hdo. discriminate.
  - intros (res & value & Hdo & Hs & Hval & Hnone).
    rewrite (sendRequest_received _ _ _ _ Hdo).
    rewrite handlerRequestError_success by assumption.
    unfold Decoder_Decode. now rewrite Hval.
Qed.

End DispatcherExtras.

(** X18. With an [httpHeader] as the result object, an error response
    leaves in it exactly the headers of the response: what the object held
    before the call is gone. *)
Theorem sendRequest_httpHeader_replaced {resolver : BackendResolver}
    {shapes : ErrorShapeLib} {decoder : DecoderLib httpHeader}
    c req (h : httpHeader) res :
  HTTPClient_Do (config c) req = inl res ->
  ~ successStatus (resp_StatusCode res) ->
  httpHeader_Header (fst (sendRequest c req h)) = resp_Header res.
Proof.
  intros Hdo Hs. rewrite (sendRequest_received _ _ _ _ Hdo).
  destruct (handlerRequestError_failure c res Hs) as [err ->].
  reflexivity.
Qed.

(** ** The further properties on the concrete runtime *)

Lemma newRequest_gateway_url_of_model_witness :
  exists req,
    sample_newRequest (gateway_client 200 []) tt "POST" "/messages"
      (anyVertex legacy_body) sample_setters
    = (anyVertex {| mr_Model := "claude-2.1";
                    mr_AnthropicVersion := "vertex-2023-10-16" |}, Ok req)
    /\ req_URL req = "https://api.example.com/claude-2.1:messages".
Proof.
  exact (newRequest_gateway_url_of_model
           (resolver := sample_resolver) (lib := sample_lib)
           (gateway_client 200 []) tt "POST" "/"%char "messages" legacy_body
           sample_setters _ eq_refl eq_refl eq_refl sample_setters_keepsURL).
Defined.

Lemma newRequest_serialized_body_witness :
  exists req,
    snd (sample_newRequest (gateway_client 200 []) tt "POST" "/messages"
           (anyVertex sample_body) sample_setters) = Ok req
    /\ sample_Marshal
         (anyVertex {| mr_Model := "claude-3-haiku-20240307";
                       mr_AnthropicVersion := "vertex-2023-10-16" |})
       = inl (req_Body req).
Proof.
  eexists. split; [reflexivity|].
  exact (newRequest_serialized_body
           (resolver := sample_resolver) (lib := sample_lib)
           (gateway_client 200 []) tt "POST" "/messages" (anyVertex sample_body)
           sample_setters _ eq_refl sample_setters_keepsBody).
Defined.

Lemma newRequest_errors_witness :
  (libError "net/http: invalid method"
   = errorString "this call not supported by the Vertex AI API"
   /\ isVertexAI (BackendResolver := sample_resolver) "2023-06-01" = true
   /\ exists p, @anyNil MessagesRequest string = anyOther p)
  \/ (exists msg,
        libError "net/http: invalid method" = libError msg
        /\ sample_Marshal anyNil = inr msg)
  \/ (exists msg url,
        libError "net/http: invalid method" = libError msg
        /\ sample_validate tt "BAD METHOD" url = Some msg).
Proof.
  exact (newRequest_errors (resolver := sample_resolver) (lib := sample_lib)
           (direct_client 200 []) tt "BAD METHOD" "/v1/messages" anyNil sample_setters
           _ eq_refl).
Defined.

Lemma newRequest_json_headers_witness :
  exists req,
    snd (sample_newRequest (direct_client 200 []) tt "POST" "/v1/messages"
           (anyVertex sample_body) sample_setters) = Ok req
    /\ req_Header req !! "Content-Type" = Some ["application/json; charset=utf-8"]
    /\ req_Header req !! "Accept" = Some ["application/json; charset=utf-8"].
Proof.
  eexists. split; [reflexivity|].
  refine (newRequest_json_headers (resolver := sample_resolver) (lib := sample_lib)
            (direct_client 200 []) tt "POST" "/v1/messages" (anyVertex sample_body)
            sample_setters _ eq_refl
            (sample_setters_keepsHeader _ _) (sample_setters_keepsHeader _ _));
    discriminate.
Defined.

Lemma newRequest_auth_headers_witness :
  exists req,
    snd (sample_newRequest (gateway_client 200 []) tt "POST" "/messages"
           (anyVertex sample_body) sample_setters) = Ok req
    /\ req_Header req !! "Authorization" = Some ["Bearer sk-test"]
    /\ req_Header req !! "X-Api-Key" = None
    /\ req_Header req !! "Anthropic-Version" = None.
Proof.
  eexists. split; [reflexivity|].
  refine (newRequest_auth_headers (resolver := sample_resolver) (lib := sample_lib)
            (gateway_client 200 []) tt "POST" "/messages" (anyVertex sample_body)
            sample_setters _ eq_refl
            (sample_setters_keepsHeader _ _) (sample_setters_keepsHeader _ _)
            (sample_setters_keepsHeader _ _));
    discriminate.
Defined.

Lemma newRequest_apiKeyFunc_witness :
  sample_newRequest (keyed_client "2023-06-01" "sk-old") tt "POST" "/v1/messages"
    (anyVertex sample_body) sample_setters
  = sample_newRequest (keyed_client "2023-06-01" "sk-new") tt "POST" "/v1/messages"
      (anyVertex sample_body) sample_setters.
Proof.
  exact (newRequest_apiKeyFunc (resolver := sample_resolver) (lib := sample_lib)
           (keyed_client "2023-06-01" "sk-old") (keyed_client "2023-06-01" "sk-new")
           (fun _ => "sk-resolved") tt "POST" "/v1/messages" (anyVertex sample_body)
           sample_setters eq_refl eq_refl eq_refl eq_refl).
Defined.

Lemma newRequest_withBetaVersion_witness :
  exists req req0,
    snd (sample_newRequest (direct_client 200 []) tt "POST" "/v1/messages"
           (anyVertex sample_body) (sample_setters ++ [withBetaVersion "cache"]))
    = Ok req
    /\ snd (sample_newRequest (direct_client 200 []) tt "POST" "/v1/messages"
              (anyVertex sample_body) sample_setters) = Ok req0
    /\ req_Header req = <["Anthropic-Beta" := ["cache"]]> (req_Header req0)
    /\ req_Header req !! "Anthropic-Beta" = Some ["cache"]
    /\ req_Method req = req_Method req0
    /\ req_URL req = req_URL req0
    /\ req_Body req = req_Body req0.
Proof.
  eexists.
  destruct (newRequest_withBetaVersion (resolver := sample_resolver)
              (lib := sample_lib) (direct_client 200 []) tt "POST" "/v1/messages"
              (anyVertex sample_body) sample_setters "cache" _ eq_refl)
    as (req0 & Hreq0).
  exists req0. split; [reflexivity | exact Hreq0].
Defined.

Lemma handlerRequestError_status_carried_witness :
  error_StatusCode
    (RequestErrorPtr 502 (Some (libError "invalid character")) sample_html_body)
  = Some 502%Z.
Proof.
  exact (handlerRequestError_status_carried (resolver := sample_resolver)
           (shapes := sample_shapes) (direct_client 502 sample_html_body)
           (sample_response 502 sample_html_body) _ eq_refl).
Defined.

Lemma handlerRequestError_unreadable_body_witness :
  sample_handlerRequestError (gateway_client 401 sample_error_body)
    (truncated_response 401 sample_error_body)
  = Some (RequestErrorPtr 401 (Some (libError "unexpected EOF")) []).
Proof.
  exact (proj1 (handlerRequestError_unreadable_body sample_shapes strict_shapes
                  (resolver := sample_resolver)
                  (gateway_client 401 sample_error_body) 401 sample_headers
                  sample_error_body (libError "unexpected EOF") not_success_401)).
Defined.

Lemma handlerRequestError_standard_decoded_witness :
  sample_handlerRequestError (direct_client 401 sample_error_body)
    (sample_response 401 sample_error_body)
  = Some (wrapAPIError 401
            {| api_Type := "authentication_error"; api_Message := "invalid x-api-key" |}).
Proof.
  exact (handlerRequestError_standard_decoded (resolver := sample_resolver)
           (shapes := sample_shapes) (direct_client 401 sample_error_body)
           (sample_response 401 sample_error_body) _ _
           not_success_401 eq_refl eq_refl eq_refl eq_refl).
Defined.

Lemma handlerRequestError_one_shape_witness :
  handlerRequestError (resolver := sample_resolver) (shapes := sample_shapes)
    (gateway_client 403 sample_error_body) (sample_response 403 sample_error_body)
  = handlerRequestError (resolver := sample_resolver) (shapes := strict_shapes)
      (gateway_client 403 sample_error_body) (sample_response 403 sample_error_body).
Proof.
  exact (handlerRequestError_one_shape (resolver := sample_resolver)
           sample_shapes strict_shapes (gateway_client 403 sample_error_body)
           (sample_response 403 sample_error_body) eq_refl).
Defined.

Lemma sendRequest_transport_error_witness :
  sample_sendRequest offline_client sample_request sample_result
  = (sample_result, Some (libError "connection refused")).
Proof.
  exact (sendRequest_transport_error (resolver := sample_resolver)
           (shapes := sample_shapes) (decoder := sample_decoder)
           offline_client sample_request sample_result _ eq_refl).
Defined.

Lemma sendRequest_httpHeader_replaced_witness :
  httpHeader_Header
    (fst (sendRequest (resolver := sample_resolver) (shapes := sample_shapes)
            (decoder := header_decoder) (direct_client 502 sample_html_body)
            sample_request ({[ "X-Stale" := ["1"] ]} : httpHeader)))
  = sample_headers.
Proof.
  exact (sendRequest_httpHeader_replaced (resolver := sample_resolver)
           (shapes := sample_shapes) (decoder := header_decoder)
           (direct_client 502 sample_html_body) sample_request
           ({[ "X-Stale" := ["1"] ]} : httpHeader)
           (sample_response 502 sample_html_body) eq_refl not_success_502).
Defined.
